(** * JukeBox front end: the application bootstrap module

    A shallow embedding of [src/frontend/pyjukebox/src/main.ts], the entry
    module of the pyjukebox web client, and the properties of it that the
    specification states.

    The module is straight-line glue over an external framework (Vue, its
    router, the service-worker registration module).  It is embedded as a
    program over the calls it makes into that framework; the framework
    itself is a parameter, so every theorem holds for all behaviours of the
    framework, failing ones included. *)

From Stdlib Require Import Ascii String.
From stdpp Require Import gmap strings list.

Local Open Scope string_scope.
Local Open Scope list_scope.

(** ** Values, state and outcomes *)

Section Embedding.

Context {Ref World Err : Type}.

(** JavaScript values that cross the boundary of the module: the two
    literals of the source ([false], ['#app']) and references to objects
    owned by the framework (constructor, component, router, instance,
    virtual nodes). *)
Inductive value : Type :=
| VBool (b : bool)
| VStr (s : string)
| VRef (r : Ref).

(** The state the module runs in.  [config] is the object [Vue.config], a
    JavaScript object used as a map from property names to values; [world]
    is everything else the framework owns (route table, component tree,
    DOM, registered workers) and is opaque to the module. *)
Record state : Type := State {
  config : gmap string value;
  world : World
}.

(** A call either returns a value or throws; both leave a state behind. *)
Inductive outcome (A : Type) : Type :=
| Done (a : A) (s : state)
| Threw (e : Err) (s : state).

Arguments Done {A} a s.
Arguments Threw {A} e s.

Definition state_of {A : Type} (o : outcome A) : state :=
  match o with
  | Done _ s => s
  | Threw _ s => s
  end.

Definition completed {A : Type} (o : outcome A) : bool :=
  match o with
  | Done _ _ => true
  | Threw _ _ => false
  end.

(** Computations of the framework: state passing with exceptions. *)
Definition FW (A : Type) : Type := state -> outcome A.

(** The options object literal handed to the constructor,
    [{ router, render: x => x(App) }]. *)
Record ComponentOptions : Type := Options {
  router : Ref;
  render : (Ref -> FW Ref) -> FW Ref
}.

(** ** The calls of the module *)

(** One constructor per kind of statement of the source that reaches
    outside the module; the index is the type of what the call returns. *)
Inductive event : Type -> Type :=
| ImportDefault (specifier : string) : event Ref
    (* import X from '<specifier>' *)
| ImportEffect (specifier : string) : event unit
    (* import '<specifier>' *)
| AssignConfig (ctor : Ref) (property : string) (v : value) : event unit
    (* <ctor>.config.<property> = v *)
| New (ctor : Ref) (options : ComponentOptions) : event Ref
    (* new <ctor>(options) *)
| Mount (vm : Ref) (args : list value) : event Ref.
    (* <vm>.$mount(...args) *)

(** Programs: sequences of calls, with the two error constructs of the
    language ([throw] and [try]/[catch]) and with deferral: [Defer task k]
    schedules [task] to run after the current script has run to its end
    (a timer, a promise reaction, the rest of a function after [await]) and
    goes on with [k]. *)
Inductive prog (R : Type) : Type :=
| Ret (r : R)
| Vis {X : Type} (e : event X) (k : X -> prog R)
| Throw (err : Err)
| Try {X : Type} (body : prog X) (handler : Err -> prog X) (k : X -> prog R)
| Defer (task : prog unit) (k : prog R).

Arguments Ret {R} r.
Arguments Vis {R X} e k.
Arguments Throw {R} err.
Arguments Try {R X} body handler k.
Arguments Defer {R} task k.

Fixpoint bind {A B : Type} (p : prog A) (f : A -> prog B) : prog B :=
  match p with
  | Ret a => f a
  | Vis e k => Vis e (fun x => bind (k x) f)
  | Throw err => Throw err
  | Try body handler k => Try body handler (fun x => bind (k x) f)
  | Defer task k => Defer task (bind k f)
  end.

Definition trigger {X : Type} (e : event X) : prog X := Vis e Ret.

#[global] Instance prog_ret : MRet prog := @Ret.
#[global] Instance prog_bind : MBind prog := fun A B f p => bind p f.

Definition import_default (specifier : string) : prog Ref :=
  trigger (ImportDefault specifier).
Definition import_effect (specifier : string) : prog unit :=
  trigger (ImportEffect specifier).
Definition assign_config (ctor : Ref) (property : string) (v : value) : prog unit :=
  trigger (AssignConfig ctor property v).
Definition new (ctor : Ref) (options : ComponentOptions) : prog Ref :=
  trigger (New ctor options).
Definition mount (vm : Ref) (args : list value) : prog Ref :=
  trigger (Mount vm args).

(** ** The module *)

(** What evaluating a module leaves behind: its top-level bindings and its
    exports, by name. *)
Record module_record : Type := Module_record {
  bindings : gmap string Ref;
  exports : gmap string Ref
}.

(** [render: x => x(App)].  The arrow function only applies its argument;
    it is written for any monad [M] of effects the argument may have. *)
Definition render_option {M : Type -> Type} (App : Ref) : (Ref -> M Ref) -> M Ref :=
  fun x => x App.

(** The body of main.ts, statement by statement.  The import declarations
    are evaluated first, in source order; the three default imports are the
    only bindings of the module, and there is no export. *)
Definition main : prog module_record :=
  Vue ← import_default "vue";
  App ← import_default "./App.vue";
  import_effect "./registerServiceWorker";;
  router_ ← import_default "./router";
  assign_config Vue "productionTip" (VBool false);;
  vm ← new Vue {| router := router_; render := render_option App |};
  _ ← mount vm [VStr "#app"];
  mret {| bindings := <["Vue" := Vue]> (<["App" := App]> {["router" := router_]});
          exports := ∅ |}.

(** ** Running a program against a framework *)

(** The framework, as far as the module calls it.  Nothing is assumed of
    these four operations: each may return anything, change the whole
    state, or throw. *)
Record framework : Type := Framework {
  fw_import : string -> FW Ref;
  fw_import_effect : string -> FW unit;
  fw_new : Ref -> ComponentOptions -> FW Ref;
  fw_mount : Ref -> list value -> FW Ref
}.

(** The assignment is the one statement that the module carries out
    itself: a write of one property of the configuration object.
    [Vue.config] is taken to be an ordinary writable object, as the one of
    the framework is: the write stores the value and does not throw.  A
    frozen, missing or setter-backed configuration object is outside this
    model; statements that depend on the write say what it stores. *)
Definition write_config (property : string) (v : value) (s : state) : state :=
  {| config := <[property := v]> (config s); world := world s |}.

Definition handle (fw : framework) {X : Type} (e : event X) : FW X :=
  match e in event T return FW T with
  | ImportDefault specifier => fw_import fw specifier
  | ImportEffect specifier => fw_import_effect fw specifier
  | AssignConfig _ property v => fun s => Done tt (write_config property v s)
  | New ctor options => fw_new fw ctor options
  | Mount vm args => fw_mount fw vm args
  end.

(** An entry of the journal of a run: a call with what it returned, or
    with what it threw. *)
Inductive call : Type :=
| Returned {X : Type} (e : event X) (x : X)
| Raised {X : Type} (e : event X) (err : Err).

Record result (R : Type) : Type := Result {
  calls : list call;
  final : outcome R
}.

Arguments Result {R} calls final.
Arguments calls {R} r.
Arguments final {R} r.

(** Statements run one after the other, each to its end; an exception ends
    the enclosing sequence and reaches the nearest enclosing [Try], or the
    caller when there is none. *)
Fixpoint run (fw : framework) {R : Type} (p : prog R) (s : state) : result R :=
  match p with
  | Ret r => Result [] (Done r s)
  | Vis e k =>
      match handle fw e s with
      | Done x s1 =>
          let r := run fw (k x) s1 in
          Result (Returned e x :: calls r) (final r)
      | Threw err s1 => Result [Raised e err] (Threw err s1)
      end
  | Throw err => Result [] (Threw err s)
  | Try body handler k =>
      let rb := run fw body s in
      match final rb with
      | Done x s1 =>
          let r := run fw (k x) s1 in
          Result (calls rb ++ calls r) (final r)
      | Threw err s1 =>
          let rh := run fw (handler err) s1 in
          match final rh with
          | Done x s2 =>
              let r := run fw (k x) s2 in
              Result (calls rb ++ calls rh ++ calls r) (final r)
          | Threw err' s2 => Result (calls rb ++ calls rh) (Threw err' s2)
          end
      end
  | Defer _ k => run fw k s
  end.

Definition outcome_of (fw : framework) {R : Type} (p : prog R) (s : state) : outcome R :=
  final (run fw p s).

Definition journal (fw : framework) {R : Type} (p : prog R) (s : state) : list call :=
  calls (run fw p s).

(** ** Reading the journal *)

(** A call without the references it passes and without its answer: which
    statement of a module it is. *)
Inductive label : Type :=
| LImport (specifier : string)
| LImportEffect (specifier : string)
| LAssign (property : string) (v : value)
| LNew
| LMount (args : list value).

Definition label_of {X : Type} (e : event X) : label :=
  match e with
  | ImportDefault specifier => LImport specifier
  | ImportEffect specifier => LImportEffect specifier
  | AssignConfig _ property v => LAssign property v
  | New _ _ => LNew
  | Mount _ args => LMount args
  end.

Definition call_label (c : call) : label :=
  match c with
  | Returned e _ => label_of e
  | Raised e _ => label_of e
  end.

Definition returned (c : call) : bool :=
  match c with
  | Returned _ _ => true
  | Raised _ _ => false
  end.

Definition mount_args (c : call) : option (list value) :=
  match call_label c with
  | LMount args => Some args
  | _ => None
  end.

Definition assignment (c : call) : option (string * value) :=
  match call_label c with
  | LAssign property v => Some (property, v)
  | _ => None
  end.

(** The side-effect import of the service-worker registration module,
    evaluated to its end. *)
Definition registers_service_worker (c : call) : bool :=
  returned c
  && match call_label c with
     | LImportEffect specifier => bool_decide (specifier = "./registerServiceWorker")
     | _ => false
     end.

(** The setup proper: the calls that come after the registration. *)
Definition follows_registration (c : call) : bool :=
  match call_label c with
  | LAssign _ _ | LNew | LMount _ => true
  | LImport _ | LImportEffect _ => false
  end.

(** [registered_first seen l]: every assignment, construction and mount in
    [l] comes after a completed registration import ([seen] tells whether
    one came before [l]). *)
Fixpoint registered_first (seen : bool) (l : list call) : bool :=
  match l with
  | [] => true
  | c :: l' =>
      (if follows_registration c then seen else true)
      && registered_first (seen || registers_service_worker c) l'
  end.

(** [sequential l]: every call of [l] but the last one returned; a call that
    throws ends the journal. *)
Fixpoint sequential (l : list call) : bool :=
  match l with
  | [] => true
  | c :: l' =>
      match l' with
      | [] => true
      | _ :: _ => returned c && sequential l'
      end
  end.

(** The statements of main.ts that reach outside the module, in source
    order. *)
Definition statements : list label :=
  [ LImport "vue";
    LImport "./App.vue";
    LImportEffect "./registerServiceWorker";
    LImport "./router";
    LAssign "productionTip" (VBool false);
    LNew;
    LMount [VStr "#app"] ].

(** [writes_only ok p]: every assignment to the configuration object that
    [p] contains writes a property and a value accepted by [ok]. *)
Fixpoint writes_only (ok : string -> value -> Prop) {R : Type} (p : prog R) : Prop :=
  match p with
  | Ret _ => True
  | Vis e k =>
      match label_of e with
      | LAssign property v => ok property v
      | _ => True
      end
      /\ forall x, writes_only ok (k x)
  | Throw _ => True
  | Try body handler k =>
      writes_only ok body /\ (forall err, writes_only ok (handler err))
      /\ forall x, writes_only ok (k x)
  | Defer _ k => writes_only ok k
  end.

(** ** Error constructs and failures *)

Fixpoint catch_free {R : Type} (p : prog R) : Prop :=
  match p with
  | Ret _ => True
  | Vis _ k => forall x, catch_free (k x)
  | Throw _ => True
  | Try _ _ _ => False
  | Defer _ k => catch_free k
  end.


(** [fails_in fw p s err s']: while [p] runs from [s], a call into the
    framework throws [err], leaving the state [s']. *)
Inductive fails_in (fw : framework) :
  forall {R : Type}, prog R -> state -> Err -> state -> Prop :=
| fails_here {R X : Type} (e : event X) (k : X -> prog R) s err s' :
    handle fw e s = Threw err s' ->
    fails_in fw (Vis e k) s err s'
| fails_later {R X : Type} (e : event X) (k : X -> prog R) s x s1 err s' :
    handle fw e s = Done x s1 ->
    fails_in fw (k x) s1 err s' ->
    fails_in fw (Vis e k) s err s'
| fails_try_body {R X : Type} (body : prog X) handler (k : X -> prog R) s err s' :
    fails_in fw body s err s' ->
    fails_in fw (Try body handler k) s err s'
| fails_try_handler {R X : Type} (body : prog X) handler (k : X -> prog R)
    s err1 s1 err s' :
    outcome_of fw body s = Threw err1 s1 ->
    fails_in fw (handler err1) s1 err s' ->
    fails_in fw (Try body handler k) s err s'
| fails_try_next {R X : Type} (body : prog X) handler (k : X -> prog R)
    s x s1 err s' :
    outcome_of fw body s = Done x s1 ->
    fails_in fw (k x) s1 err s' ->
    fails_in fw (Try body handler k) s err s'
| fails_try_recovered {R X : Type} (body : prog X) handler (k : X -> prog R)
    s err1 s1 x s2 err s' :
    outcome_of fw body s = Threw err1 s1 ->
    outcome_of fw (handler err1) s1 = Done x s2 ->
    fails_in fw (k x) s2 err s' ->
    fails_in fw (Try body handler k) s err s'
| fails_after_defer {R : Type} (task : prog unit) (k : prog R) s err s' :
    fails_in fw k s err s' ->
    fails_in fw (Defer task k) s err s'.

(** ** Assumptions on the framework used by some statements *)


(** [I] holds after every operation of the framework started where it
    holds, whether the operation returns or throws. *)
Definition preserves (fw : framework) (I : state -> Prop) : Prop :=
  (forall specifier s, I s -> I (state_of (fw_import fw specifier s)))
  /\ (forall specifier s, I s -> I (state_of (fw_import_effect fw specifier s)))
  /\ (forall ctor options s, I s -> I (state_of (fw_new fw ctor options s)))
  /\ (forall vm args s, I s -> I (state_of (fw_mount fw vm args s))).

(** The framework does not write its configuration object on its own. *)
Definition keeps_config (fw : framework) : Prop :=
  forall c : gmap string value, preserves fw (fun s => config s = c).

(** ** The state a call is made in, and what a call passes *)

(** The journal of a run with, for each call, the state in which it was
    made. *)
Fixpoint history (fw : framework) {R : Type} (p : prog R) (s : state)
    : list (state * call) :=
  match p with
  | Ret _ => []
  | Vis e k =>
      match handle fw e s with
      | Done x s1 => (s, Returned e x) :: history fw (k x) s1
      | Threw err _ => [(s, Raised e err)]
      end
  | Throw _ => []
  | Try body handler k =>
      history fw body s ++
      match final (run fw body s) with
      | Done x s1 => history fw (k x) s1
      | Threw err s1 =>
          history fw (handler err) s1 ++
          match final (run fw (handler err) s1) with
          | Done x s2 => history fw (k x) s2
          | Threw _ _ => []
          end
      end
  | Defer _ k => history fw k s
  end.

(** The tasks that a run leaves scheduled: what is still to run, on its
    own, after the program has run to its end. *)
Fixpoint deferred (fw : framework) {R : Type} (p : prog R) (s : state)
    : list (prog unit) :=
  match p with
  | Ret _ => []
  | Vis e k =>
      match handle fw e s with
      | Done x s1 => deferred fw (k x) s1
      | Threw _ _ => []
      end
  | Throw _ => []
  | Try body handler k =>
      deferred fw body s ++
      match final (run fw body s) with
      | Done x s1 => deferred fw (k x) s1
      | Threw err s1 =>
          deferred fw (handler err) s1 ++
          match final (run fw (handler err) s1) with
          | Done x s2 => deferred fw (k x) s2
          | Threw _ _ => []
          end
      end
  | Defer task k => task :: deferred fw k s
  end.

(** The constructor and the options of a construction, the instance of a
    mount. *)
Definition constructs {X : Type} (e : event X) : option (Ref * ComponentOptions) :=
  match e with
  | New ctor options => Some (ctor, options)
  | _ => None
  end.

Definition mounts {X : Type} (e : event X) : option Ref :=
  match e with
  | Mount vm _ => Some vm
  | _ => None
  end.

Definition call_constructs (c : call) : option (Ref * ComponentOptions) :=
  match c with
  | Returned e _ => constructs e
  | Raised e _ => constructs e
  end.

Definition call_mounts (c : call) : option Ref :=
  match c with
  | Returned e _ => mounts e
  | Raised e _ => mounts e
  end.


End Embedding.

Arguments Done {Ref World Err A} a s.
Arguments Threw {Ref World Err A} e s.
Arguments Ret {Ref World Err R} r.
Arguments Vis {Ref World Err R X} e k.
Arguments Throw {Ref World Err R} err.
Arguments Try {Ref World Err R X} body handler k.
Arguments Result {Ref World Err R} calls final.
Arguments calls {Ref World Err R} r.
Arguments final {Ref World Err R} r.

(** ** A framework to run the module against *)

Module Browser.

(** References are names, the world is the list of things the framework did
    (latest first), errors are messages. *)
Definition note (msg : string) (s : @state string (list string)) : state :=
  {| config := config s; world := msg :: world s |}.



(** A page whose document has the elements selected by [anchors].  Importing
    a module yields a reference named after its specifier; mounting throws
    when the selector matches no element of the document. *)
Definition page (anchors : list string) : @framework string (list string) string :=
  {| fw_import := fun specifier s => Done specifier (note ("import " +:+ specifier) s);
     fw_import_effect := fun specifier s => Done tt (note ("import " +:+ specifier) s);
     fw_new := fun ctor options s => Done "vm" (note ("new " +:+ ctor) s);
     fw_mount := fun vm args s =>
       match args with
       | [VStr selector] =>
           if bool_decide (selector ∈ anchors)
           then Done vm (note ("mount " +:+ selector) s)
           else Threw ("Cannot find element: " +:+ selector) s
       | _ => Threw "unsupported mount arguments" s
       end |}.

(** The state before the bundle runs: the framework's defaults for two of
    its configuration properties, and nothing done yet. *)
Definition fresh : @state string (list string) :=
  {| config := <["productionTip" := VBool true]> {["silent" := VBool false]};
     world := [] |}.

(** The state in which the module calls [$mount]. *)
Definition constructed : @state string (list string) :=
  {| config := <["productionTip" := VBool false]> {["silent" := VBool false]};
     world := ["new vue"; "import ./router"; "import ./registerServiceWorker";
               "import ./App.vue"; "import vue"] |}.

(** The state after a successful mount on '#app'. *)
Definition mounted : @state string (list string) :=
  {| config := config constructed; world := "mount #app" :: world constructed |}.

(** What the module leaves behind on this framework. *)
Definition loaded : @module_record string :=
  {| bindings := <["Vue" := "vue"]> (<["App" := "./App.vue"]> {["router" := "./router"]});
     exports := ∅ |}.

(** The journal of the module on this framework up to the mount, and the
    mount. *)
Definition loading : list (@call string (list string) string) :=
  [ Returned (ImportDefault "vue") "vue";
    Returned (ImportDefault "./App.vue") "./App.vue";
    Returned (ImportEffect "./registerServiceWorker") tt;
    Returned (ImportDefault "./router") "./router";
    Returned (AssignConfig "vue" "productionTip" (VBool false)) tt;
    Returned (New "vue" {| router := "./router"; render := render_option "./App.vue" |})
      "vm" ].

Definition mounting : @call string (list string) string :=
  Returned (Mount "vm" [VStr "#app"]) "vm".

End Browser.

(** ** The source text *)

Definition source_files : list string := ["src/frontend/pyjukebox/src/main.ts"].

Definition main_ts : string :=
"import Vue from 'vue'
import App from './App.vue'
import './registerServiceWorker'
import router from './router'

Vue.config.productionTip = false

new Vue({
  router,
  render: x => x(App)
}).$mount('#app')".

Definition newline : Ascii.ascii := "010"%char.

Fixpoint newlines (text : string) : nat :=
  match text with
  | EmptyString => 0
  | String c rest => (if Ascii.eqb c newline then 1 else 0) + newlines rest
  end.

(** The pieces of [text] between newline characters. *)
Fixpoint split_lines (text : string) : list string :=
  match text with
  | EmptyString => [EmptyString]
  | String c rest =>
      if Ascii.eqb c newline then EmptyString :: split_lines rest
      else match split_lines rest with
           | line :: more => String c line :: more
           | [] => [String c EmptyString]
           end
  end.

(** The lines of [text]: a newline at the very end closes the last line and
    does not open another one. *)
Definition lines (text : string) : list string :=
  match reverse (split_lines text) with
  | EmptyString :: earlier => reverse earlier
  | _ => split_lines text
  end.

Example lines_with_final_newline : lines "a
b
" = ["a"; "b"].
Proof. reflexivity. Qed.

Example journal_on_page :
  journal (Browser.page ["#app"]) main Browser.fresh
  = Browser.loading ++ [Browser.mounting].
Proof. reflexivity. Qed.

Example journal_without_anchor :
  journal (Browser.page []) main Browser.fresh
  = Browser.loading ++ [Raised (Mount "vm" [VStr "#app"]) "Cannot find element: #app"].
Proof. reflexivity. Qed.

(** * Properties *)

Section Properties.

Context {Ref World Err : Type}.

Implicit Types (fw : @framework Ref World Err) (s : @state Ref World).

(** ** Programs without handlers and without throws *)

Lemma catch_free_propagates fw {R : Type} (p : prog R) s err s' :
  fails_in fw p s err s' -> catch_free p -> outcome_of fw p s = Threw err s'.
Proof.
  unfold outcome_of.
  induction 1 as [R X e k s err s' Hcall
                 |R X e k s x s1 err s' Hcall Hrest IH
                 | | | | | ]; cbn [catch_free run]; try tauto.
  - intros _. now rewrite Hcall.
  - intros Hfree. rewrite Hcall. cbn [final]. apply IH, Hfree.
Qed.


Lemma main_catch_free : catch_free (@main Ref World Err).
Proof. repeat (intros ?; cbn). exact I. Qed.


(** ** What a run does to the state *)

(** A property of the state that the framework preserves and that the
    writes of a program preserve holds at the end of every run of the
    program, completed or not. *)
Lemma run_preserves fw (I : state -> Prop) (ok : string -> value -> Prop)
    {R : Type} (p : prog R) s :
  preserves fw I ->
  (forall property v s0, ok property v -> I s0 -> I (write_config property v s0)) ->
  writes_only ok p ->
  I s ->
  I (state_of (outcome_of fw p s)).
Proof.
  intros (Himport & Heffect & Hnew & Hmount) Hwrite.
  unfold outcome_of. revert s.
  induction p as [R r|R X e k IH|R err0|R X body IHbody handler IHhandler k IHk
                 |R task IHtask k IHnext];
    intros s; cbn [writes_only run final state_of].
  - auto.
  - intros [He Hk] Hs.
    assert (Hcall : I (state_of (handle fw e s))).
    { destruct e; cbn [handle state_of label_of] in *; auto. }
    destruct (handle fw e s) as [x s1|err1 s1]; cbn [final state_of] in *; auto.
  - auto.
  - intros (Hb & Hh & Hk) Hs.
    specialize (IHbody s Hb Hs).
    destruct (final (run fw body s)) as [x s1|err1 s1]; cbn [final state_of] in *.
    + auto.
    + specialize (IHhandler err1 s1 (Hh err1) IHbody).
      destruct (final (run fw (handler err1) s1)) as [x s2|err2 s2];
        cbn [final state_of] in *; auto.
  - auto.
Qed.

Lemma main_writes_only :
  writes_only (fun property v => property = "productionTip" /\ v = VBool false)
    (@main Ref World Err).
Proof. repeat (intros ? || split || cbn); exact I. Qed.

(** Every call of a program without handlers returns before the next one
    starts, up to the call that throws. *)
Lemma catch_free_sequential fw {R : Type} (p : prog R) s :
  catch_free p -> sequential (journal fw p s) = true.
Proof.
  unfold journal. revert s.
  induction p as [R r|R X e k IH|R err0|R X body IHbody handler IHhandler k IHk
                 |R task IHtask k IHnext];
    intros s; cbn [catch_free run calls]; try tauto; try reflexivity;
    try apply IHnext.
  intros Hfree. destruct (handle fw e s) as [x s1|err1 s1]; cbn [calls]; [|reflexivity].
  specialize (IH x s1 (Hfree x)).
  cbn [sequential]. destruct (calls (run fw (k x) s1)); [reflexivity|].
  cbn [returned andb]. exact IH.
Qed.

(** A call that the registration has to precede has a completed
    registration import before it, in a journal accepted by
    [registered_first]. *)
Lemma registered_first_split seen (l : list (@call Ref World Err)) before c rest :
  registered_first seen l = true ->
  l = before ++ c :: rest ->
  follows_registration c = true ->
  seen = true \/ exists c0, c0 ∈ before /\ registers_service_worker c0 = true.
Proof.
  revert seen l. induction before as [|b before IH]; intros seen l Hl -> Hc.
  - cbn in Hl. rewrite Hc in Hl. apply andb_true_iff in Hl as [-> _]. now left.
  - cbn in Hl. apply andb_true_iff in Hl as [_ Hl].
    destruct (IH _ _ Hl eq_refl Hc) as [Hseen|(c0 & Hin & Hreg)].
    + apply orb_true_iff in Hseen as [->|Hb]; [now left|].
      right. exists b. split; [apply list_elem_of_here|exact Hb].
    + right. exists c0. split; [now apply list_elem_of_further|exact Hreg].
Qed.

(** ** Case analysis on a run of the module *)

Ltac unfold_main :=
  unfold journal, outcome_of;
  cbv [main mbind mret prog_bind prog_ret bind import_default import_effect
       assign_config new mount trigger].

(** Seven goals: the run stopped at one of the six calls that can throw, or
    went through. *)
Ltac main_cases :=
  unfold_main; cbn [run history deferred handle calls final];
  repeat (lazymatch goal with
          | |- context [match ?o with Done _ _ => _ | Threw _ _ => _ end] =>
              destruct o as [? ?|? ?] eqn:?
          end;
          cbn [run history deferred handle calls final state_of completed]).

(** Under [keeps_config], each answer of the framework found by the case
    analysis leaves the configuration object as it was. *)
Ltac track_config Hkeep :=
  repeat match goal with
  | H : fw_import _ ?a ?s0 = _ |- _ =>
      let E := fresh "E" in
      pose proof (proj1 (Hkeep (config s0)) a s0 eq_refl) as E;
      rewrite H in E; cbn [state_of] in E; clear H
  | H : fw_import_effect _ ?a ?s0 = _ |- _ =>
      let E := fresh "E" in
      pose proof (proj1 (proj2 (Hkeep (config s0))) a s0 eq_refl) as E;
      rewrite H in E; cbn [state_of] in E; clear H
  | H : fw_new _ ?a ?o ?s0 = _ |- _ =>
      let E := fresh "E" in
      pose proof (proj1 (proj2 (proj2 (Hkeep (config s0)))) a o s0 eq_refl) as E;
      rewrite H in E; cbn [state_of] in E; clear H
  | H : fw_mount _ ?a ?l ?s0 = _ |- _ =>
      let E := fresh "E" in
      pose proof (proj2 (proj2 (proj2 (Hkeep (config s0)))) a l s0 eq_refl) as E;
      rewrite H in E; cbn [state_of] in E; clear H
  end;
  cbn [write_config config] in *.

(** C1: when the module runs to its end it has carried out exactly these
    calls, once each: the four imports (among them the side-effect import of
    './registerServiceWorker'), the assignment of [false] to
    [Vue.config.productionTip], the construction of an instance of the
    imported constructor with the imported router and the render function in
    its options, and the mount of that instance.  The assignment takes
    effect: the constructor is called in a state where [productionTip] is
    [false], and with a framework that does not write its configuration
    object on its own the object is at the end the initial one with
    [productionTip] set to [false]. *)
Theorem bootstrap_effects fw s m s' :
  outcome_of fw main s = Done m s' ->
  exists Vue App router_ vm vm',
    journal fw main s =
      [ Returned (ImportDefault "vue") Vue;
        Returned (ImportDefault "./App.vue") App;
        Returned (ImportEffect "./registerServiceWorker") tt;
        Returned (ImportDefault "./router") router_;
        Returned (AssignConfig Vue "productionTip" (VBool false)) tt;
        Returned (New Vue {| router := router_; render := render_option App |}) vm;
        Returned (Mount vm [VStr "#app"]) vm' ]
    /\ (exists s0,
          (s0, Returned (New Vue {| router := router_; render := render_option App |}) vm)
          ∈ history fw main s
          /\ config s0 !! "productionTip" = Some (VBool false))
    /\ (keeps_config fw ->
        config s' = <["productionTip" := VBool false]> (config s)).
Proof.
  main_cases; try discriminate.
  intros [= <- <-]. repeat match goal with u : unit |- _ => destruct u end.
  do 5 eexists. split; [reflexivity|split].
  - eexists. split.
    + do 5 apply list_elem_of_further. apply list_elem_of_here.
    + cbn [write_config config]. apply lookup_insert_eq.
  - intros Hkeep. track_config Hkeep. congruence.
Qed.

(** C2: every mount call that a run of the module makes has one argument,
    the selector string '#app'. *)
Theorem mount_selector fw s c args :
  c ∈ journal fw main s ->
  mount_args c = Some args ->
  args = [VStr "#app"].
Proof.
  main_cases; intros Hin Hargs;
    repeat (apply elem_of_cons in Hin as [->|Hin]; [cbn in Hargs; congruence|]);
    now apply elem_of_nil in Hin.
Qed.

(** C3: the module has no handler, and whenever a call into the framework
    throws while the module runs, the module ends by throwing that same
    error, in the state the failed call left. *)
Theorem failures_propagate fw s err s' :
  fails_in fw main s err s' ->
  catch_free (@main Ref World Err) /\ outcome_of fw main s = Threw err s'.
Proof.
  intros Hfails. split; [apply main_catch_free|].
  apply catch_free_propagates; [assumption|apply main_catch_free].
Qed.

(** C4: the one write that the module carries out itself is
    [productionTip := false] on the configuration object.  Hence, with a
    framework that does not write that object on its own, every other
    property of it is at the end what it was at the start and, once the
    module has run to its end, the object is the initial one with
    [productionTip] set to [false]; and any property of the state that the
    framework's operations and that write preserve still holds at the end:
    the module changes no other state. *)
Theorem only_production_tip_written fw s :
  keeps_config fw ->
  (forall c property v,
      c ∈ journal fw main s -> assignment c = Some (property, v) ->
      property = "productionTip" /\ v = VBool false)
  /\ (forall property,
      property ≠ "productionTip" ->
      config (state_of (outcome_of fw main s)) !! property = config s !! property)
  /\ (completed (outcome_of fw main s) = true ->
      config (state_of (outcome_of fw main s))
      = <["productionTip" := VBool false]> (config s))
  /\ (forall I : state -> Prop,
      preserves fw I ->
      (forall s0, I s0 -> I (write_config "productionTip" (VBool false) s0)) ->
      I s -> I (state_of (outcome_of fw main s))).
Proof.
  intros Hkeep. split; [|split; [|split]].
  - main_cases; intros c property v Hin Hassign;
      repeat (apply elem_of_cons in Hin as [->|Hin];
              [cbn in Hassign; try discriminate Hassign;
               injection Hassign as <- <-; now split|]);
      now apply elem_of_nil in Hin.
  - intros property Hother.
    main_cases; track_config Hkeep;
      repeat match goal with E : config _ = _ |- _ => rewrite E; clear E end;
      try reflexivity; now rewrite lookup_insert_ne.
  - main_cases; try discriminate. intros _. track_config Hkeep. congruence.
  - intros I Hfw Hwrite Hs.
    apply (run_preserves fw I
             (fun property v => property = "productionTip" /\ v = VBool false));
      [exact Hfw| |apply main_writes_only|exact Hs].
    intros property v s0 [-> ->]. apply Hwrite.
Qed.

(** C5: in every run the calls of the module are made one after the other,
    each returning before the next is made, in the order of the source: the
    four imports, the assignment of the flag, the construction, the mount.
    A run that stops early has made an initial part of that sequence; a run
    that completes has made all of it, once.  The flag is set before the
    instance is constructed: the constructor is called in a state where
    [productionTip] is [false].  The module defers nothing: when its run
    ends, no task of its own is left scheduled. *)
Theorem setup_order fw s :
  (call_label <$> journal fw main s) `prefix_of` statements
  /\ sequential (journal fw main s) = true
  /\ (completed (outcome_of fw main s) = true ->
      call_label <$> journal fw main s = statements)
  /\ (forall s0 c,
      (s0, c) ∈ history fw main s -> call_label c = LNew ->
      config s0 !! "productionTip" = Some (VBool false))
  /\ deferred fw main s = [].
Proof.
  split; [|split; [|split; [|split]]].
  - main_cases; eexists; reflexivity.
  - apply catch_free_sequential, main_catch_free.
  - main_cases; try discriminate. reflexivity.
  - main_cases; intros before c Hin Hnew;
      repeat (apply elem_of_cons in Hin as [[= -> ->]|Hin];
              [cbn in Hnew;
               first [discriminate Hnew
                     |cbn [write_config config]; apply lookup_insert_eq]|]);
      now apply elem_of_nil in Hin.
  - main_cases; reflexivity.
Qed.



(** C9: a completed run of the module leaves no export, and its bindings
    are the three names of its default imports, each holding what its
    import returned: the value of the construct-and-mount expression is
    bound to no name. *)
Theorem exports_nothing fw s m s' :
  outcome_of fw main s = Done m s' ->
  exports m = ∅
  /\ dom (bindings m) = {["Vue"; "App"; "router"]}
  /\ forall name r,
      bindings m !! name = Some r ->
      exists specifier, Returned (ImportDefault specifier) r ∈ journal fw main s.
Proof.
  main_cases; try discriminate.
  intros [= <- <-]. cbn [exports bindings]. split; [reflexivity|split].
  - rewrite !dom_insert_L, dom_singleton_L. set_solver.
  - intros name r0 Hlookup.
    apply lookup_insert_Some in Hlookup as [[_ <-]|[_ Hlookup]];
      [|apply lookup_insert_Some in Hlookup as [[_ <-]|[_ Hlookup]];
        [|apply lookup_singleton_Some in Hlookup as [_ <-]]];
      eexists; repeat constructor.
Qed.

(** C10: in every run, whatever comes before an assignment to the
    configuration, a construction or a mount includes the completed
    evaluation of the import of './registerServiceWorker'. *)
Theorem registration_precedes_setup fw s before c rest :
  journal fw main s = before ++ c :: rest ->
  follows_registration c = true ->
  exists c0, c0 ∈ before /\ registers_service_worker c0 = true.
Proof.
  intros Hsplit Hc.
  assert (Hfirst : registered_first false (journal fw main s) = true).
  { clear. main_cases; reflexivity. }
  destruct (registered_first_split _ _ _ _ _ Hfirst Hsplit Hc) as [Hseen|Hfound];
    [discriminate Hseen|exact Hfound].
Qed.

(** ** Further properties of the module *)

Lemma history_journal fw {R : Type} (p : prog R) s :
  (history fw p s).*2 = journal fw p s.
Proof.
  unfold journal. revert s.
  induction p as [R r|R X e k IH|R err0|R X body IHbody handler IHhandler k IHk
                 |R task IHtask k IHnext];
    intros s; cbn [history run calls]; try reflexivity.
  - destruct (handle fw e s) as [x s1|err1 s1]; cbn [calls]; [|reflexivity].
    rewrite fmap_cons. cbn [snd]. now rewrite IH.
  - rewrite fmap_app, IHbody.
    destruct (final (run fw body s)) as [x s1|err1 s1]; cbn [calls].
    + now rewrite IHk.
    + rewrite fmap_app, IHhandler.
      destruct (final (run fw (handler err1) s1)) as [x s2|err2 s2]; cbn [calls].
      * now rewrite IHk.
      * now rewrite app_nil_r.
  - apply IHnext.
Qed.

(** X1: what a failed run leaves in the configuration object, with a
    framework that does not write it on its own.  When an import throws,
    the object is as it was before the module ran; when the construction
    or the mount throws, [productionTip] stays set to [false]: the write is
    not undone. *)
Theorem config_after_failure fw s c :
  keeps_config fw ->
  last (journal fw main s) = Some c ->
  returned c = false ->
  config (state_of (outcome_of fw main s))
  = if follows_registration c
    then <["productionTip" := VBool false]> (config s)
    else config s.
Proof.
  intros Hkeep.
  main_cases; cbn [last]; intros [= <-] Hthrew;
    try discriminate Hthrew;
    cbn [follows_registration call_label label_of];
    track_config Hkeep; congruence.
Qed.

(** X3: in every run, also one in which the construction or the mount
    throws, the constructor that is called is what the import of 'vue'
    returned, the router in its options is what the import of './router'
    returned, and the render option applies its argument to what the import
    of './App.vue' returned. *)
Theorem constructor_wiring fw s c ctor options :
  c ∈ journal fw main s ->
  call_constructs c = Some (ctor, options) ->
  Returned (ImportDefault "vue") ctor ∈ journal fw main s
  /\ Returned (ImportDefault "./router") (router options) ∈ journal fw main s
  /\ exists App,
      Returned (ImportDefault "./App.vue") App ∈ journal fw main s
      /\ forall x s0, render options x s0 = x App s0.
Proof.
  main_cases; intros Hin Hnew;
    repeat (apply elem_of_cons in Hin as [->|Hin];
            [cbn in Hnew;
             first [discriminate Hnew
                   |injection Hnew as <- <-;
                    split; [repeat constructor|split; [repeat constructor|]];
                    eexists; split; [repeat constructor|reflexivity]]|]);
    now apply elem_of_nil in Hin.
Qed.

(** X4: in every run, also one in which the mount throws, the instance that
    is mounted is the one that the construction returned. *)
Theorem mount_target_is_constructed fw s c vm :
  c ∈ journal fw main s ->
  call_mounts c = Some vm ->
  exists ctor options, Returned (New ctor options) vm ∈ journal fw main s.
Proof.
  main_cases; intros Hin Hmount;
    repeat (apply elem_of_cons in Hin as [->|Hin];
            [cbn in Hmount;
             first [discriminate Hmount
                   |injection Hmount as <-; do 2 eexists; repeat constructor]|]);
    now apply elem_of_nil in Hin.
Qed.

End Properties.

(** ** The source file *)

(** C6 (as the source has it): one file, of eleven lines; its text has ten
    newline characters and does not end with one. *)
Theorem source_is_one_file_of_eleven_lines :
  length source_files = 1
  /\ length (lines main_ts) = 11
  /\ newlines main_ts = 10.
Proof. repeat split; reflexivity. Qed.

(** C6 as stated fails: the file is not twelve lines long. *)
Lemma source_is_not_twelve_lines :
  ~ (length source_files = 1 /\ length (lines main_ts) = 12).
Proof. intros [_ H]. vm_compute in H. discriminate H. Qed.

(** * The module on a page *)

Lemma page_run_completes :
  outcome_of (Browser.page ["#app"]) main Browser.fresh
  = Done Browser.loaded Browser.mounted.
Proof. vm_compute. reflexivity. Qed.

Lemma page_keeps_config anchors : keeps_config (Browser.page anchors).
Proof.
  intros c. repeat split; cbn; intros; try assumption.
  repeat case_match; assumption.
Qed.




Lemma bootstrap_effects_witness :
  exists Vue App router_ vm vm',
    journal (Browser.page ["#app"]) main Browser.fresh =
      [ Returned (ImportDefault "vue") Vue;
        Returned (ImportDefault "./App.vue") App;
        Returned (ImportEffect "./registerServiceWorker") tt;
        Returned (ImportDefault "./router") router_;
        Returned (AssignConfig Vue "productionTip" (VBool false)) tt;
        Returned (New Vue {| router := router_; render := render_option App |}) vm;
        Returned (Mount vm [VStr "#app"]) vm' ]
    /\ (exists s0,
          (s0, Returned (New Vue {| router := router_; render := render_option App |}) vm)
          ∈ history (Browser.page ["#app"]) main Browser.fresh
          /\ config s0 !! "productionTip" = Some (VBool false))
    /\ (keeps_config (Browser.page ["#app"]) ->
        config Browser.mounted
        = <["productionTip" := VBool false]> (config Browser.fresh)).
Proof.
  exact (bootstrap_effects (Browser.page ["#app"]) Browser.fresh
           Browser.loaded Browser.mounted page_run_completes).
Defined.

Lemma mount_selector_witness :
  exists c args,
    c ∈ journal (Browser.page ["#app"]) main Browser.fresh
    /\ mount_args c = Some args
    /\ args = [VStr "#app"].
Proof.
  exists Browser.mounting, [VStr "#app"].
  assert (Hin : Browser.mounting
                ∈ journal (Browser.page ["#app"]) main Browser.fresh).
  { change (Browser.mounting ∈ Browser.loading ++ [Browser.mounting]).
    apply elem_of_app. right. constructor. }
  split; [exact Hin|split; [reflexivity|]].
  exact (mount_selector (Browser.page ["#app"]) Browser.fresh
           Browser.mounting [VStr "#app"] Hin eq_refl).
Defined.

Lemma failures_propagate_witness :
  catch_free (@main string (list string) string)
  /\ outcome_of (Browser.page []) main Browser.fresh
     = Threw "Cannot find element: #app" Browser.constructed.
Proof.
  apply failures_propagate.
  do 6 (eapply fails_later; [reflexivity|]).
  apply fails_here. vm_compute. reflexivity.
Defined.

Lemma only_production_tip_written_witness :
  config (state_of (outcome_of (Browser.page ["#app"]) main Browser.fresh))
  = <["productionTip" := VBool false]> (config Browser.fresh)
  /\ config (state_of (outcome_of (Browser.page ["#app"]) main Browser.fresh))
     !! "silent" = Some (VBool false).
Proof.
  pose proof (only_production_tip_written (Browser.page ["#app"]) Browser.fresh
                (page_keeps_config ["#app"])) as (_ & Hother & Hflag & _).
  split.
  - apply Hflag. rewrite page_run_completes. reflexivity.
  - rewrite (Hother "silent"); [reflexivity|discriminate].
Defined.



Lemma exports_nothing_witness :
  exports Browser.loaded = ∅
  /\ dom (bindings Browser.loaded) = {["Vue"; "App"; "router"]}
  /\ forall name r,
      bindings Browser.loaded !! name = Some r ->
      exists specifier,
        Returned (ImportDefault specifier) r
        ∈ journal (Browser.page ["#app"]) main Browser.fresh.
Proof.
  exact (exports_nothing (Browser.page ["#app"]) Browser.fresh
           Browser.loaded Browser.mounted page_run_completes).
Defined.

Lemma registration_precedes_setup_witness :
  exists c0, c0 ∈ Browser.loading /\ registers_service_worker c0 = true.
Proof.
  apply (registration_precedes_setup (Browser.page ["#app"]) Browser.fresh
           Browser.loading Browser.mounting []); reflexivity.
Defined.

Lemma config_after_failure_witness :
  config (state_of (outcome_of (Browser.page []) main Browser.fresh))
  = <["productionTip" := VBool false]> (config Browser.fresh).
Proof.
  exact (config_after_failure (Browser.page []) Browser.fresh
           (Raised (Mount "vm" [VStr "#app"]) "Cannot find element: #app")
           (page_keeps_config []) eq_refl eq_refl).
Defined.

Lemma constructor_wiring_witness :
  Returned (ImportDefault "vue") "vue"
  ∈ journal (Browser.page []) main Browser.fresh
  /\ Returned (ImportDefault "./router") "./router"
     ∈ journal (Browser.page []) main Browser.fresh
  /\ exists App,
      Returned (ImportDefault "./App.vue") App
      ∈ journal (Browser.page []) main Browser.fresh
      /\ forall (x : string -> @FW string (list string) string string) s0,
          render_option "./App.vue" x s0 = x App s0.
Proof.
  refine (constructor_wiring (Browser.page []) Browser.fresh
            (Returned
               (New "vue"
                  {| router := "./router"; render := render_option "./App.vue" |})
               "vm")
            "vue" {| router := "./router"; render := render_option "./App.vue" |}
            _ eq_refl).
  do 5 apply list_elem_of_further. apply list_elem_of_here.
Defined.

Lemma mount_target_is_constructed_witness :
  exists ctor options,
    Returned (New ctor options) "vm"
    ∈ journal (Browser.page []) main Browser.fresh.
Proof.
  refine (mount_target_is_constructed (Browser.page []) Browser.fresh
            (Raised (Mount "vm" [VStr "#app"]) "Cannot find element: #app")
            "vm" _ eq_refl).
  do 6 apply list_elem_of_further. apply list_elem_of_here.
Defined.
